(** * ALSA SoC SPDIF DID (Digital Interface Duplex) driver

    A shallow embedding of [zynlibs/zynaudio8x/spdif_duplex.c] and the
    properties of its probe routine.

    The driver consists of static tables (widgets, routes, the component
    driver, the DAI driver) and one function, [spdif_duplex_probe], which
    reads two optional device-tree cells, stores them into the static,
    mutable DAI driver object when they pass a validity test, and hands
    the address of that object to the ASoC core.

    The kernel is modelled by explicit state passing: the state holds the
    current contents of the static object [duplex_stub_dai] and the log of
    calls made into the ASoC core.  The core receives the *address* of the
    static object, so what it sees of a registered DAI is always the
    current contents. *)

From Stdlib Require Import ZArith List Bool Lia.
From Stdlib Require Import Strings.Byte.
From stdpp Require Import base strings gmap.

Local Open Scope Z_scope.

(* ===================================================================== *)
(** ** Device tree: nodes, properties, [of_property_read_u32]            *)
(* ===================================================================== *)

(** The device-tree accessors belong to the kernel ([drivers/of]), not to
    the driver; they are modelled by their documented contract.

    A property value is the raw byte string of the flattened tree; a node
    maps property names to values. *)
Abbreviation device_node := (gmap string (list byte)).

Inductive of_error : Type :=
| EINVAL      (* the property does not exist *)
| ENODATA     (* the property has no value *)
| EOVERFLOW.  (* the property data is too short for one cell *)

Definition errno (e : of_error) : Z :=
  match e with
  | EINVAL => 22
  | ENODATA => 61
  | EOVERFLOW => 75
  end.

Definition byte_val (b : byte) : Z := Z.of_N (Byte.to_N b).

(** A cell is stored big-endian. *)
Definition be32_to_cpup (b0 b1 b2 b3 : byte) : Z :=
  Z.lor (Z.shiftl (byte_val b0) 24)
    (Z.lor (Z.shiftl (byte_val b1) 16)
       (Z.lor (Z.shiftl (byte_val b2) 8) (byte_val b3))).

(** [np] is a pointer and may be NULL: a device that was not instantiated
    from the device tree has no node. *)
Definition of_find_property (np : option device_node) (propname : string)
  : option (list byte) :=
  match np with
  | None => None
  | Some node => node !! propname
  end.

(** The first cell of the property, or the reason why there is none. *)
Definition of_read_u32 (np : option device_node) (propname : string)
  : of_error + Z :=
  match of_find_property np propname with
  | None => inl EINVAL
  | Some [] => inl ENODATA
  | Some (b0 :: b1 :: b2 :: b3 :: _) => inr (be32_to_cpup b0 b1 b2 b3)
  | Some _ => inl EOVERFLOW
  end.

(** [int of_property_read_u32(np, propname, u32 *out_value)]: returns 0
    and stores the cell on success; on failure returns the negated errno
    and leaves [*out_value] as it was.  The result is the pair of the
    return value and the final contents of [*out_value]. *)
Definition of_property_read_u32 (np : option device_node) (propname : string)
    (out_value : Z) : Z * Z :=
  match of_read_u32 np propname with
  | inr v => (0, v)
  | inl e => (- errno e, out_value)
  end.

(* ===================================================================== *)
(** ** ASoC data structures                                              *)
(* ===================================================================== *)

Inductive snd_soc_dapm_type : Type :=
| snd_soc_dapm_input
| snd_soc_dapm_output.

Record snd_soc_dapm_widget : Type := {
  id : snd_soc_dapm_type;
  widget_name : string;
}.

Definition SND_SOC_DAPM_INPUT (wname : string) : snd_soc_dapm_widget :=
  {| id := snd_soc_dapm_input; widget_name := wname |}.
Definition SND_SOC_DAPM_OUTPUT (wname : string) : snd_soc_dapm_widget :=
  {| id := snd_soc_dapm_output; widget_name := wname |}.

(** [struct snd_soc_dapm_route] of [<sound/soc-dapm.h>]: the members are,
    in this order, the sink, the control and the source; the source feeds
    the sink.  The routes of the driver are initialised positionally. *)
Record snd_soc_dapm_route : Type := {
  sink : string;
  control : option string;
  source : string;
}.

Record snd_soc_component_driver : Type := {
  dapm_widgets : list snd_soc_dapm_widget;
  num_dapm_widgets : Z;
  dapm_routes : list snd_soc_dapm_route;
  num_dapm_routes : Z;
  idle_bias_on : Z;
  use_pmdown_time : Z;
  endianness : Z;
}.

Record snd_soc_pcm_stream : Type := {
  stream_name : string;
  channels_min : Z;
  channels_max : Z;
  rates : Z;
  formats : Z;
}.

Record snd_soc_dai_driver : Type := {
  name : string;
  capture : snd_soc_pcm_stream;
  playback : snd_soc_pcm_stream;
}.

Definition ARRAY_SIZE {A : Type} (arr : list A) : Z := Z.of_nat (length arr).

(* ===================================================================== *)
(** ** Devices and drivers                                               *)
(* ===================================================================== *)

Record of_device_id : Type := {
  compatible : string;
}.

Record device_driver : Type := {
  driver_name : string;
  of_match_table : list of_device_id;
}.

Record device : Type := {
  of_node : option device_node;
  bound_driver : option device_driver;   (* [dev->driver] *)
}.

Record platform_device : Type := {
  dev : device;
}.

(* ===================================================================== *)
(** ** Kernel state                                                      *)
(* ===================================================================== *)

(** The only [snd_soc_dai_driver] object of the module; the ASoC core is
    given its address. *)
Inductive dai_driver_ptr : Type :=
| addr_duplex_stub_dai.

(** One call of [devm_snd_soc_register_component]. *)
Record register_call : Type := {
  call_dev : device;
  call_component_driver : snd_soc_component_driver;
  call_dai_drv : dai_driver_ptr;
  call_num_dai : Z;
}.

Record kernel : Type := {
  duplex_stub_dai : snd_soc_dai_driver;      (* contents of the static object *)
  asoc_calls : list (register_call * Z);     (* calls into the core, with results *)
}.

Definition deref (k : kernel) (p : dai_driver_ptr) : snd_soc_dai_driver :=
  match p with
  | addr_duplex_stub_dai => duplex_stub_dai k
  end.

(** Computations over the kernel state. *)
Definition M (A : Type) : Type := kernel -> A * kernel.

Definition ret {A : Type} (a : A) : M A := fun k => (a, k).

Definition bind {A B : Type} (c : M A) (f : A -> M B) : M B :=
  fun k => let (a, k') := c k in f a k'.

Notation "'let*' x ':=' c 'in' f" := (bind c (fun x => f))
  (at level 10, x name, c at level 100, f at level 200, only parsing).

Definition when (b : bool) (c : M unit) : M unit :=
  if b then c else ret tt.

Definition set_channels_max (v : Z) (s : snd_soc_pcm_stream)
  : snd_soc_pcm_stream :=
  {| stream_name := stream_name s;
     channels_min := channels_min s;
     channels_max := v;
     rates := rates s;
     formats := formats s |}.

(** [duplex_stub_dai.capture.channels_max = v;] *)
Definition store_capture_channels_max (v : Z) : M unit :=
  fun k =>
    (tt, {| duplex_stub_dai :=
              {| name := name (duplex_stub_dai k);
                 capture := set_channels_max v (capture (duplex_stub_dai k));
                 playback := playback (duplex_stub_dai k) |};
            asoc_calls := asoc_calls k |}).

(** [duplex_stub_dai.playback.channels_max = v;] *)
Definition store_playback_channels_max (v : Z) : M unit :=
  fun k =>
    (tt, {| duplex_stub_dai :=
              {| name := name (duplex_stub_dai k);
                 capture := capture (duplex_stub_dai k);
                 playback := set_channels_max v (playback (duplex_stub_dai k)) |};
            asoc_calls := asoc_calls k |}).

(* ===================================================================== *)
(** ** The driver                                                        *)
(* ===================================================================== *)

(** The bit masks of [<sound/pcm.h>] that the driver names.  Their values
    belong to the kernel headers, not to the driver; the driver is
    parametrised by them. *)
Record sound_pcm_h : Type := {
  SNDRV_PCM_RATE_8000_96000 : Z;
  SNDRV_PCM_FMTBIT_S16_LE : Z;
  SNDRV_PCM_FMTBIT_S20_3LE : Z;
  SNDRV_PCM_FMTBIT_S24_LE : Z;
  SNDRV_PCM_FMTBIT_S32_LE : Z;
  SNDRV_PCM_FMTBIT_IEC958_SUBFRAME_LE : Z;
}.

Definition STUB_RATES (h : sound_pcm_h) : Z := SNDRV_PCM_RATE_8000_96000 h.

Definition STUB_FORMATS (h : sound_pcm_h) : Z :=
  Z.lor (SNDRV_PCM_FMTBIT_S16_LE h)
    (Z.lor (SNDRV_PCM_FMTBIT_S20_3LE h)
       (Z.lor (SNDRV_PCM_FMTBIT_S24_LE h)
          (Z.lor (SNDRV_PCM_FMTBIT_S32_LE h)
             (SNDRV_PCM_FMTBIT_IEC958_SUBFRAME_LE h)))).

Definition duplex_widgets : list snd_soc_dapm_widget :=
  [ SND_SOC_DAPM_INPUT "spdif-in";
    SND_SOC_DAPM_OUTPUT "spdif-out" ].

Definition duplex_routes : list snd_soc_dapm_route :=
  [ {| sink := "Capture"; control := None; source := "spdif-in" |};
    {| sink := "Playback"; control := None; source := "spdif-out" |} ].

Definition soc_codec_spdif_duplex : snd_soc_component_driver :=
  {| dapm_widgets := duplex_widgets;
     num_dapm_widgets := ARRAY_SIZE duplex_widgets;
     dapm_routes := duplex_routes;
     num_dapm_routes := ARRAY_SIZE duplex_routes;
     idle_bias_on := 1;
     use_pmdown_time := 1;
     endianness := 1 |}.

(** The static initialiser of [duplex_stub_dai]. *)
Definition duplex_stub_dai_init (h : sound_pcm_h) : snd_soc_dai_driver :=
  {| name := "did-hifi";
     capture :=
       {| stream_name := "Capture";
          channels_min := 1;
          channels_max := 384;
          rates := STUB_RATES h;
          formats := STUB_FORMATS h |};
     playback :=
       {| stream_name := "Playback";
          channels_min := 1;
          channels_max := 384;
          rates := STUB_RATES h;
          formats := STUB_FORMATS h |} |}.

(** The kernel state when the module has been loaded and no device has
    been attached yet. *)
Definition module_init (h : sound_pcm_h) : kernel :=
  {| duplex_stub_dai := duplex_stub_dai_init h; asoc_calls := [] |}.

Definition spdif_duplex_dt_ids : list of_device_id :=
  [ {| compatible := "linux,spdif-did" |} ].

(** The test of lines 65 and 69, on a [uint32_t]. *)
Definition channels_ok (val : Z) : bool :=
  (val <? 385) && (val mod 2 =? 0).

(** [dev->driver = drv]. *)
Definition bind_driver (drv : device_driver) (pdev : platform_device)
  : platform_device :=
  {| dev := {| of_node := of_node (dev pdev); bound_driver := Some drv |} |}.

Section Driver.

(** The ASoC core is outside the driver: the return value of
    [devm_snd_soc_register_component] is whatever the core decides, from
    the state of the kernel and the arguments of the call. *)
Variable asoc_core : kernel -> register_call -> Z.

Definition devm_snd_soc_register_component (d : device)
    (cmpnt_drv : snd_soc_component_driver) (dai_drv : dai_driver_ptr)
    (num_dai : Z) : M Z :=
  fun k =>
    let c := {| call_dev := d;
                call_component_driver := cmpnt_drv;
                call_dai_drv := dai_drv;
                call_num_dai := num_dai |} in
    let r := asoc_core k c in
    (r, {| duplex_stub_dai := duplex_stub_dai k;
           asoc_calls := asoc_calls k ++ [(c, r)] |}).

Definition spdif_duplex_probe (pdev : platform_device) : M Z :=
  let np := of_node (dev pdev) in
  let val := 2 in
  let val := snd (of_property_read_u32 np "capture-channels" val) in
  let* _ := when (channels_ok val) (store_capture_channels_max val) in
  let val := 2 in
  let val := snd (of_property_read_u32 np "playback-channels" val) in
  let* _ := when (channels_ok val) (store_playback_channels_max val) in
  devm_snd_soc_register_component (dev pdev)
    soc_codec_spdif_duplex addr_duplex_stub_dai 1.

Record platform_driver : Type := {
  probe : platform_device -> M Z;
  driver : device_driver;
}.

Definition spdif_duplex_driver : platform_driver :=
  {| probe := spdif_duplex_probe;
     driver := {| driver_name := "spdif-did";
                  of_match_table := spdif_duplex_dt_ids |} |}.

(** What the platform bus does when it attaches a device to a driver:
    it sets [dev->driver] and calls the driver's probe routine. *)
Definition platform_probe (drv : platform_driver) (pdev : platform_device)
  : M Z :=
  probe drv (bind_driver (driver drv) pdev).

(** Successive attachments, in order; the results of the probes are
    collected. *)
Fixpoint attach_all (pdevs : list platform_device) : M (list Z) :=
  match pdevs with
  | [] => ret []
  | pdev :: rest =>
      let* r := platform_probe spdif_duplex_driver pdev in
      let* rs := attach_all rest in
      ret (r :: rs)
  end.

End Driver.

(** The two stream directions, the property that configures each and the
    stream of the DAI driver that describes each. *)
Inductive direction : Type :=
| Capture
| Playback.

Definition propname (d : direction) : string :=
  match d with
  | Capture => "capture-channels"
  | Playback => "playback-channels"
  end.

Definition pcm_stream (d : direction) (dai : snd_soc_dai_driver)
  : snd_soc_pcm_stream :=
  match d with
  | Capture => capture dai
  | Playback => playback dai
  end.

Definition other (d : direction) : direction :=
  match d with
  | Capture => Playback
  | Playback => Capture
  end.

(** The mask values of the Linux headers: the formats are
    [1 << SNDRV_PCM_FORMAT_x] with the numbers of the user-space ABI, the
    rate band is bits 1 to 10. *)
Definition linux_pcm_h : sound_pcm_h :=
  {| SNDRV_PCM_RATE_8000_96000 := 0x7fe;
     SNDRV_PCM_FMTBIT_S16_LE := Z.shiftl 1 2;
     SNDRV_PCM_FMTBIT_S20_3LE := Z.shiftl 1 38;
     SNDRV_PCM_FMTBIT_S24_LE := Z.shiftl 1 6;
     SNDRV_PCM_FMTBIT_S32_LE := Z.shiftl 1 10;
     SNDRV_PCM_FMTBIT_IEC958_SUBFRAME_LE := Z.shiftl 1 18 |}.

(** The cell of a [u32] as the device-tree compiler writes it: four bytes,
    most significant first. *)
Definition byte_at (v sh : Z) : byte :=
  match Byte.of_N (Z.to_N (Z.land (Z.shiftr v sh) 255)) with
  | Some b => b
  | None => x00
  end.

Definition cpu_to_be32 (v : Z) : list byte :=
  [byte_at v 24; byte_at v 16; byte_at v 8; byte_at v 0].

(** Example inputs: a device on a given node, nodes with the given cells,
    a core that accepts every registration and one that refuses every
    registration with [-ENOMEM]. *)
Definition pdev_of (np : option device_node) : platform_device :=
  {| dev := {| of_node := np; bound_driver := None |} |}.

Definition node_cap (v : Z) : option device_node :=
  Some {[ "capture-channels" := cpu_to_be32 v ]}.
Definition node_play (v : Z) : option device_node :=
  Some {[ "playback-channels" := cpu_to_be32 v ]}.
Definition node_both (c p : Z) : option device_node :=
  Some (<[ "capture-channels" := cpu_to_be32 c ]>
          {[ "playback-channels" := cpu_to_be32 p ]}).

Definition core_ok : kernel -> register_call -> Z := fun _ _ => 0.
Definition core_enomem : kernel -> register_call -> Z := fun _ _ => -12.

(* ===================================================================== *)
(** ** Vocabulary for the statements                                     *)
(* ===================================================================== *)

(** The arguments with which the probe of [pdev] calls the core. *)
Definition probe_call (pdev : platform_device) : register_call :=
  {| call_dev := dev pdev;
     call_component_driver := soc_codec_spdif_duplex;
     call_dai_drv := addr_duplex_stub_dai;
     call_num_dai := 1 |}.

(** The value the probe leaves in [channels_max] of a direction whose
    property reads as [rd], when it was [old] before. *)
Definition channels_after (rd : of_error + Z) (old : Z) : Z :=
  match rd with
  | inl _ => 2
  | inr v => if channels_ok v then v else old
  end.

(** The part of the probe before the call of the core: lines 62 to 70. *)
Definition probe_stores (pdev : platform_device) : M unit :=
  let np := of_node (dev pdev) in
  let val := 2 in
  let val := snd (of_property_read_u32 np "capture-channels" val) in
  let* _ := when (channels_ok val) (store_capture_channels_max val) in
  let val := 2 in
  let val := snd (of_property_read_u32 np "playback-channels" val) in
  when (channels_ok val) (store_playback_channels_max val).

Definition channels_max_of (d : direction) (k : kernel) : Z :=
  channels_max (pcm_stream d (duplex_stub_dai k)).

Definition channels_min_of (d : direction) (k : kernel) : Z :=
  channels_min (pcm_stream d (duplex_stub_dai k)).

(** Everything but the two maxima is as the static initialiser has it,
    after any number of attachments. *)
Definition fixed_part (h : sound_pcm_h) (dai : snd_soc_dai_driver) : Prop :=
  name dai = name (duplex_stub_dai_init h) /\
  forall d,
    stream_name (pcm_stream d dai) =
      stream_name (pcm_stream d (duplex_stub_dai_init h)) /\
    channels_min (pcm_stream d dai) = 1 /\
    rates (pcm_stream d dai) = STUB_RATES h /\
    formats (pcm_stream d dai) = STUB_FORMATS h.

(** A core that refuses the first registration and accepts the later
    ones. *)
Definition core_fail_first : kernel -> register_call -> Z :=
  fun k _ => match asoc_calls k with
             | [] => -12
             | _ :: _ => 0
             end.

(** The channel maxima of the DAI drivers that the core holds, one per
    call, read through the pointers it was given. *)
Definition registered_max (d : direction) (k : kernel) : list Z :=
  map (fun c => channels_max (pcm_stream d (deref k (call_dai_drv (fst c)))))
    (asoc_calls k).

(** The maximum of a direction after the devices [pdevs] have been
    attached in order, when it was [old] before: each device applies the
    rule of the probe to what its predecessors left. *)
Definition channels_after_all (d : direction) (pdevs : list platform_device)
    (old : Z) : Z :=
  fold_left
    (fun m pdev => channels_after (of_read_u32 (of_node (dev pdev)) (propname d)) m)
    pdevs old.

(** The calls that attaching [pdevs] makes, in order, paired with the
    results [rs] of the probes. *)
Definition attach_calls (drv : device_driver) (pdevs : list platform_device)
    (rs : list Z) : list (register_call * Z) :=
  combine (map (fun pdev => probe_call (bind_driver drv pdev)) pdevs) rs.

(* ===================================================================== *)
(** ** The state monad                                                   *)
(* ===================================================================== *)

Lemma bind_run {A B : Type} (c : M A) (f : A -> M B) (k : kernel) :
  bind c f k = f (fst (c k)) (snd (c k)).
Proof. unfold bind. destruct (c k); reflexivity. Qed.

(* ===================================================================== *)
(** ** Facts about the device-tree accessors                             *)
(* ===================================================================== *)

Lemma byte_val_range (b : byte) : 0 <= byte_val b < 256.
Proof.
  unfold byte_val. pose proof (Byte.to_N_bounded b) as Hb. lia.
Qed.

Lemma lor_below_pow2 (a b n : Z) :
  0 <= n -> 0 <= a < 2 ^ n -> 0 <= b < 2 ^ n -> 0 <= Z.lor a b < 2 ^ n.
Proof.
  intros Hn [Ha0 Ha] [Hb0 Hb]. split.
  - apply Z.lor_nonneg; auto.
  - destruct (Z.eq_dec (Z.lor a b) 0) as [Hz | Hnz].
    + rewrite Hz. apply Z.pow_pos_nonneg; lia.
    + assert (0 < n) as Hpos.
      { destruct (Z.eq_dec n 0) as [-> | Hn0]; [| lia].
        change (2 ^ 0) with 1 in *.
        assert (a = 0) by lia. assert (b = 0) by lia. subst.
        exfalso. apply Hnz. reflexivity. }
      apply Z.log2_lt_pow2.
      * assert (0 <= Z.lor a b) by (apply Z.lor_nonneg; auto). lia.
      * rewrite Z.log2_lor by assumption.
        apply Z.max_lub_lt.
        -- destruct (Z.eq_dec a 0) as [-> | Hap]; [simpl; lia |].
           apply Z.log2_lt_pow2; lia.
        -- destruct (Z.eq_dec b 0) as [-> | Hbp]; [simpl; lia |].
           apply Z.log2_lt_pow2; lia.
Qed.

(** A cell read from the tree is a [u32]. *)
Lemma be32_to_cpup_range (b0 b1 b2 b3 : byte) :
  0 <= be32_to_cpup b0 b1 b2 b3 < 2 ^ 32.
Proof.
  unfold be32_to_cpup.
  pose proof (byte_val_range b0). pose proof (byte_val_range b1).
  pose proof (byte_val_range b2). pose proof (byte_val_range b3).
  repeat apply lor_below_pow2; try lia;
    rewrite ?Z.shiftl_mul_pow2 by lia; lia.
Qed.

Lemma byte_val_byte_at (v sh : Z) :
  0 <= v -> 0 <= sh -> byte_val (byte_at v sh) = Z.land (Z.shiftr v sh) 255.
Proof.
  intros Hv Hsh. unfold byte_val, byte_at.
  assert (Hr : 0 <= Z.land (Z.shiftr v sh) 255 < 256).
  { change 255 with (Z.ones 8). rewrite Z.land_ones by lia.
    apply Z.mod_pos_bound. lia. }
  destruct (Byte.of_N (Z.to_N (Z.land (Z.shiftr v sh) 255))) as [b |] eqn:Hb.
  - apply Byte.to_of_N in Hb. rewrite Hb. lia.
  - apply Byte.of_N_None_iff in Hb. lia.
Qed.

Ltac decide_cmp :=
  repeat match goal with
    | |- context [?a <=? ?b] =>
        first [ replace (a <=? b) with true by (symmetry; apply Z.leb_le; lia)
              | replace (a <=? b) with false by (symmetry; apply Z.leb_gt; lia) ]
    | |- context [?a <? ?b] =>
        first [ replace (a <? b) with true by (symmetry; apply Z.ltb_lt; lia)
              | replace (a <? b) with false by (symmetry; apply Z.ltb_ge; lia) ]
    end.

(** Decoding the big-endian cell of a [u32] gives the value back. *)
Lemma be32_to_cpup_cpu_to_be32 (v : Z) :
  0 <= v < 2 ^ 32 ->
  be32_to_cpup (byte_at v 24) (byte_at v 16) (byte_at v 8) (byte_at v 0) = v.
Proof.
  intros [Hv0 Hv]. unfold be32_to_cpup.
  rewrite !byte_val_byte_at by lia.
  change 255 with (Z.ones 8).
  apply Z.bits_inj'. intros n Hn.
  rewrite !Z.lor_spec, !Z.shiftl_spec, !Z.land_spec by lia.
  rewrite !Z.testbit_ones by lia.
  destruct (Z.ltb_spec n 8); [| destruct (Z.ltb_spec n 16);
    [| destruct (Z.ltb_spec n 24); [| destruct (Z.ltb_spec n 32)]]];
    decide_cmp; rewrite ?andb_false_r, ?andb_true_r, ?orb_false_r; simpl.
  - rewrite Z.shiftr_spec by lia. f_equal. lia.
  - rewrite Z.shiftr_spec by lia. f_equal. lia.
  - rewrite Z.shiftr_spec by lia. f_equal. lia.
  - rewrite Z.shiftr_spec by lia. f_equal. lia.
  - destruct (Z.eq_dec v 0) as [-> | Hnz]; [rewrite Z.bits_0; reflexivity |].
    symmetry. apply Z.bits_above_log2; [lia |].
    assert (Z.log2 v < 32) by (apply Z.log2_lt_pow2; lia). lia.
Qed.

(** A property that starts with the cell of [v] reads as [v]. *)
Lemma of_read_u32_cell (node : device_node) (p : string) (v : Z)
    (rest : list byte) :
  0 <= v < 2 ^ 32 ->
  node !! p = Some (cpu_to_be32 v ++ rest) ->
  of_read_u32 (Some node) p = inr v.
Proof.
  intros Hv Hp. unfold of_read_u32, of_find_property. rewrite Hp.
  simpl. rewrite be32_to_cpup_cpu_to_be32 by exact Hv. reflexivity.
Qed.

Lemma of_read_u32_range np propname v :
  of_read_u32 np propname = inr v -> 0 <= v < 2 ^ 32.
Proof.
  unfold of_read_u32.
  destruct (of_find_property np propname) as [[| b0 [| b1 [| b2 [| b3 rest]]]] |];
    intros H; try discriminate.
  injection H as <-. apply be32_to_cpup_range.
Qed.

Lemma of_read_u32_absent np propname :
  of_find_property np propname = None -> of_read_u32 np propname = inl EINVAL.
Proof. unfold of_read_u32. intros ->. reflexivity. Qed.

(** The out parameter is written on success only. *)
Lemma of_property_read_u32_out np propname out :
  snd (of_property_read_u32 np propname out) =
  match of_read_u32 np propname with
  | inr v => v
  | inl _ => out
  end.
Proof.
  unfold of_property_read_u32. destruct (of_read_u32 np propname); reflexivity.
Qed.

Lemma channels_ok_spec (v : Z) :
  channels_ok v = true <-> v < 385 /\ Z.even v = true.
Proof.
  unfold channels_ok. rewrite andb_true_iff, Z.ltb_lt, Z.eqb_eq.
  rewrite Zeven_mod, Z.eqb_eq. tauto.
Qed.

Lemma channels_ok_invalid (v : Z) :
  385 <= v \/ Z.odd v = true -> channels_ok v = false.
Proof.
  intros H. apply not_true_is_false. rewrite channels_ok_spec.
  intros [Hlt Hev]. destruct H as [H | H]; [lia |].
  rewrite <- Z.negb_even, Hev in H. discriminate.
Qed.

(* ===================================================================== *)
(** ** What one run of the probe does                                    *)
(* ===================================================================== *)

Ltac probe_unfold :=
  unfold spdif_duplex_probe, bind, when, devm_snd_soc_register_component,
    store_capture_channels_max, store_playback_channels_max, ret;
  cbv zeta;
  rewrite ?of_property_read_u32_out.

Ltac probe_cases pdev :=
  probe_unfold;
  destruct (of_read_u32 (of_node (dev pdev)) "capture-channels") as [ec | vc];
  destruct (of_read_u32 (of_node (dev pdev)) "playback-channels") as [ep | vp];
  change (channels_ok 2) with true; cbv iota;
  try destruct (channels_ok vc); try destruct (channels_ok vp).

Section Probe.

Variable asoc_core : kernel -> register_call -> Z.

Local Notation "'run' pdev k" := (snd (spdif_duplex_probe asoc_core pdev k))
  (at level 10, pdev at level 9, k at level 9, only parsing).

Lemma probe_channels_max d pdev k :
  channels_max (pcm_stream d (duplex_stub_dai (run pdev k))) =
  channels_after (of_read_u32 (of_node (dev pdev)) (propname d))
    (channels_max (pcm_stream d (duplex_stub_dai k))).
Proof.
  unfold channels_after.
  destruct d; simpl propname; probe_cases pdev; reflexivity.
Qed.

Lemma probe_channels_min d pdev k :
  channels_min (pcm_stream d (duplex_stub_dai (run pdev k))) =
  channels_min (pcm_stream d (duplex_stub_dai k)).
Proof. destruct d; probe_cases pdev; reflexivity. Qed.

Lemma probe_rates d pdev k :
  rates (pcm_stream d (duplex_stub_dai (run pdev k))) =
  rates (pcm_stream d (duplex_stub_dai k)).
Proof. destruct d; probe_cases pdev; reflexivity. Qed.

Lemma probe_formats d pdev k :
  formats (pcm_stream d (duplex_stub_dai (run pdev k))) =
  formats (pcm_stream d (duplex_stub_dai k)).
Proof. destruct d; probe_cases pdev; reflexivity. Qed.

Lemma probe_stream_name d pdev k :
  stream_name (pcm_stream d (duplex_stub_dai (run pdev k))) =
  stream_name (pcm_stream d (duplex_stub_dai k)).
Proof. destruct d; probe_cases pdev; reflexivity. Qed.

Lemma probe_name pdev k :
  name (duplex_stub_dai (run pdev k)) = name (duplex_stub_dai k).
Proof. probe_cases pdev; reflexivity. Qed.

(** The probe calls the core once, as its last action. *)
Lemma probe_calls pdev k :
  asoc_calls (run pdev k) =
  asoc_calls k ++ [(probe_call pdev, fst (spdif_duplex_probe asoc_core pdev k))].
Proof. probe_cases pdev; reflexivity. Qed.

(** The probe is its two guarded stores followed by the call. *)
Lemma probe_stores_then_register pdev k :
  spdif_duplex_probe asoc_core pdev k =
  bind (probe_stores pdev)
    (fun _ => devm_snd_soc_register_component asoc_core (dev pdev)
                soc_codec_spdif_duplex addr_duplex_stub_dai 1) k.
Proof.
  unfold spdif_duplex_probe, probe_stores. cbv zeta.
  rewrite !bind_run. reflexivity.
Qed.

Lemma probe_stores_calls pdev k :
  asoc_calls (snd (probe_stores pdev k)) = asoc_calls k.
Proof.
  unfold probe_stores. probe_cases pdev; reflexivity.
Qed.

Lemma probe_result pdev k :
  fst (spdif_duplex_probe asoc_core pdev k) =
  asoc_core (snd (probe_stores pdev k)) (probe_call pdev).
Proof.
  rewrite probe_stores_then_register, bind_run. reflexivity.
Qed.

Lemma probe_final_state pdev k :
  run pdev k =
  {| duplex_stub_dai := duplex_stub_dai (snd (probe_stores pdev k));
     asoc_calls :=
       asoc_calls (snd (probe_stores pdev k)) ++
       [(probe_call pdev, fst (spdif_duplex_probe asoc_core pdev k))] |}.
Proof.
  rewrite probe_stores_then_register, bind_run. reflexivity.
Qed.

(** Two streams, or two DAI drivers, are equal when their members are. *)
Lemma pcm_stream_eq (s t : snd_soc_pcm_stream) :
  stream_name s = stream_name t -> channels_min s = channels_min t ->
  channels_max s = channels_max t -> rates s = rates t ->
  formats s = formats t -> s = t.
Proof. destruct s, t; simpl; intros; subst; reflexivity. Qed.

Lemma dai_driver_eq (a b : snd_soc_dai_driver) :
  name a = name b -> (forall d, pcm_stream d a = pcm_stream d b) -> a = b.
Proof.
  destruct a, b; simpl; intros -> H.
  pose proof (H Capture) as Hc. pose proof (H Playback) as Hp.
  simpl in Hc, Hp. subst. reflexivity.
Qed.

(** The platform bus changes [dev->driver] only; the probe does not look
    at it. *)
Lemma platform_probe_state pdev k :
  duplex_stub_dai
    (snd (platform_probe (spdif_duplex_driver asoc_core) pdev k)) =
  duplex_stub_dai (run pdev k).
Proof.
  unfold platform_probe. simpl probe.
  apply dai_driver_eq.
  - rewrite !probe_name. reflexivity.
  - intros d. apply pcm_stream_eq;
      rewrite ?probe_stream_name, ?probe_channels_min, ?probe_channels_max,
        ?probe_rates, ?probe_formats; reflexivity.
Qed.

Lemma fixed_part_init h : fixed_part h (duplex_stub_dai_init h).
Proof. split; [reflexivity |]. intros []; repeat split. Qed.

Lemma fixed_part_probe h pdev k :
  fixed_part h (duplex_stub_dai k) ->
  fixed_part h (duplex_stub_dai (run pdev k)).
Proof.
  intros [Hn Hd]. split.
  - rewrite probe_name. exact Hn.
  - intros d. rewrite probe_stream_name, probe_channels_min, probe_rates,
      probe_formats. apply Hd.
Qed.

Lemma attach_all_cons pdev rest k :
  snd (attach_all asoc_core (pdev :: rest) k) =
  snd (attach_all asoc_core rest
         (snd (platform_probe (spdif_duplex_driver asoc_core) pdev k))).
Proof.
  change (attach_all asoc_core (pdev :: rest)) with
    (bind (platform_probe (spdif_duplex_driver asoc_core) pdev)
       (fun r => bind (attach_all asoc_core rest) (fun rs => ret (r :: rs)))).
  rewrite !bind_run. reflexivity.
Qed.


Lemma fixed_part_attach_all h pdevs : forall k,
  fixed_part h (duplex_stub_dai k) ->
  fixed_part h (duplex_stub_dai (snd (attach_all asoc_core pdevs k))).
Proof.
  induction pdevs as [| pdev rest IH]; intros k Hk.
  - exact Hk.
  - rewrite attach_all_cons. apply IH.
    rewrite platform_probe_state. apply fixed_part_probe, Hk.
Qed.

End Probe.

Lemma of_read_u32_fails np p e :
  of_read_u32 np p = inl e ->
  of_find_property np p = None \/
  exists bs, of_find_property np p = Some bs /\ (length bs < 4)%nat.
Proof.
  unfold of_read_u32.
  destruct (of_find_property np p) as [bs |]; [| left; reflexivity].
  intros H. right. exists bs. split; [reflexivity |].
  destruct bs as [| b0 [| b1 [| b2 [| b3 rest]]]]; simpl; try lia.
  discriminate.
Qed.

(** The maximum of a direction after the probe depends on the property of
    that direction and on the old maximum of that direction, on nothing
    else. *)
Lemma probe_channels_max_local core1 core2 d pdev1 pdev2 k1 k2 :
  of_find_property (of_node (dev pdev1)) (propname d) =
    of_find_property (of_node (dev pdev2)) (propname d) ->
  channels_max_of d k1 = channels_max_of d k2 ->
  channels_max_of d (snd (spdif_duplex_probe core1 pdev1 k1)) =
  channels_max_of d (snd (spdif_duplex_probe core2 pdev2 k2)).
Proof.
  unfold channels_max_of. intros Hp Hk.
  rewrite !probe_channels_max, Hk.
  f_equal. unfold of_read_u32. rewrite Hp. reflexivity.
Qed.

Lemma propname_other (d : direction) : propname (other d) <> propname d.
Proof. destruct d; discriminate. Qed.

(* ===================================================================== *)
(** ** Channel maxima                                                    *)
(* ===================================================================== *)

(** Every even [v] below 385, written as a cell into the property of a
    direction, ends up in the maximum of that direction. *)
Lemma probe_stores_cell core d (node : device_node) (rest : list byte) v k :
  0 <= v < 385 ->
  Z.even v = true ->
  node !! propname d = Some (cpu_to_be32 v ++ rest) ->
  channels_max_of d (snd (spdif_duplex_probe core (pdev_of (Some node)) k)) = v.
Proof.
  intros Hv Hev Hp. unfold channels_max_of.
  rewrite probe_channels_max. simpl of_node.
  rewrite (of_read_u32_cell node (propname d) v rest) by (assumption || lia).
  simpl. assert (channels_ok v = true) as ->
    by (apply channels_ok_spec; split; [lia | assumption]).
  reflexivity.
Qed.

(** C2: a property that reads as [v], with [v < 385] and [v] even, makes
    the probe leave [v] in the channel maximum of its direction, whatever
    the maximum was before. *)
Theorem C2_valid_value_is_stored core d pdev k v :
  of_read_u32 (of_node (dev pdev)) (propname d) = inr v ->
  v < 385 ->
  Z.even v = true ->
  channels_max_of d (snd (spdif_duplex_probe core pdev k)) = v.
Proof.
  intros Hr Hlt Hev. unfold channels_max_of.
  rewrite probe_channels_max, Hr. simpl.
  assert (channels_ok v = true) as -> by (apply channels_ok_spec; auto).
  reflexivity.
Qed.

Lemma C2_valid_value_is_stored_witness :
  channels_max_of Capture
    (snd (spdif_duplex_probe core_ok (pdev_of (node_both 8 384))
            (module_init linux_pcm_h))) = 8 /\
  channels_max_of Playback
    (snd (spdif_duplex_probe core_ok (pdev_of (node_both 8 384))
            (module_init linux_pcm_h))) = 384.
Proof.
  split.
  - apply (C2_valid_value_is_stored core_ok Capture
             (pdev_of (node_both 8 384)) (module_init linux_pcm_h) 8);
      [vm_compute; reflexivity | lia | reflexivity].
  - apply (C2_valid_value_is_stored core_ok Playback
             (pdev_of (node_both 8 384)) (module_init linux_pcm_h) 384);
      [vm_compute; reflexivity | lia | reflexivity].
Defined.

(** C1, as the code has it: when the property of a direction is absent the
    probe leaves 2 in the channel maximum of that direction; when it is
    present with a value that is odd or at least 385 the probe leaves the
    maximum as it was before the probe. *)
Theorem C1_absent_gives_2_invalid_keeps_old core d pdev k :
  (of_find_property (of_node (dev pdev)) (propname d) = None \/
   exists v, of_read_u32 (of_node (dev pdev)) (propname d) = inr v /\
             (385 <= v \/ Z.odd v = true)) ->
  channels_max_of d (snd (spdif_duplex_probe core pdev k)) =
  match of_find_property (of_node (dev pdev)) (propname d) with
  | None => 2
  | Some _ => channels_max_of d k
  end.
Proof.
  unfold channels_max_of. rewrite probe_channels_max.
  intros [Habs | (v & Hr & Hbad)].
  - rewrite (of_read_u32_absent _ _ Habs), Habs. reflexivity.
  - rewrite Hr. simpl. rewrite (channels_ok_invalid v Hbad).
    unfold of_read_u32 in Hr.
    destruct (of_find_property (of_node (dev pdev)) (propname d));
      [reflexivity | discriminate].
Qed.

Lemma C1_absent_gives_2_invalid_keeps_old_witness :
  channels_max_of Capture
    (snd (spdif_duplex_probe core_ok (pdev_of (node_cap 7))
            (module_init linux_pcm_h))) = 384 /\
  channels_max_of Playback
    (snd (spdif_duplex_probe core_ok (pdev_of (node_cap 7))
            (module_init linux_pcm_h))) = 2.
Proof.
  split.
  - apply (C1_absent_gives_2_invalid_keeps_old core_ok Capture
             (pdev_of (node_cap 7)) (module_init linux_pcm_h)).
    right. exists 7. split; [vm_compute; reflexivity | right; reflexivity].
  - apply (C1_absent_gives_2_invalid_keeps_old core_ok Playback
             (pdev_of (node_cap 7)) (module_init linux_pcm_h)).
    left. vm_compute. reflexivity.
Defined.

(** C1 as stated fails: on the first attachment, with
    [capture-channels = <7>] (odd) the capture maximum is 384 and not 2,
    and with [playback-channels = <500>] the playback maximum is 384 and
    not 2, while a node without the properties gives 2 for both. *)
Lemma C1_invalid_value_does_not_give_2 :
  of_read_u32 (node_cap 7) (propname Capture) = inr 7 /\
  Z.odd 7 = true /\
  channels_max_of Capture
    (snd (spdif_duplex_probe core_ok (pdev_of (node_cap 7))
            (module_init linux_pcm_h))) <> 2 /\
  of_read_u32 (node_play 500) (propname Playback) = inr 500 /\
  385 <= 500 /\
  channels_max_of Playback
    (snd (spdif_duplex_probe core_ok (pdev_of (node_play 500))
            (module_init linux_pcm_h))) <> 2 /\
  channels_max_of Capture
    (snd (spdif_duplex_probe core_ok (pdev_of None)
            (module_init linux_pcm_h))) = 2 /\
  channels_max_of Playback
    (snd (spdif_duplex_probe core_ok (pdev_of None)
            (module_init linux_pcm_h))) = 2.
Proof.
  repeat split; try (vm_compute; reflexivity); try lia;
    intros H; vm_compute in H; discriminate.
Qed.



(** C4: the maximum of a direction after the probe is determined by the
    property of that direction and the old maximum of that direction;
    setting the property of the other direction to any value, or removing
    it, does not change it. *)
Theorem C4_directions_independent core d :
  (forall core' pdev1 pdev2 k1 k2,
      of_find_property (of_node (dev pdev1)) (propname d) =
        of_find_property (of_node (dev pdev2)) (propname d) ->
      channels_max_of d k1 = channels_max_of d k2 ->
      channels_max_of d (snd (spdif_duplex_probe core pdev1 k1)) =
      channels_max_of d (snd (spdif_duplex_probe core' pdev2 k2))) /\
  (forall (node : device_node) (x : list byte) k,
      channels_max_of d
        (snd (spdif_duplex_probe core
                (pdev_of (Some (<[propname (other d) := x]> node))) k)) =
      channels_max_of d
        (snd (spdif_duplex_probe core (pdev_of (Some node)) k))) /\
  (forall (node : device_node) k,
      channels_max_of d
        (snd (spdif_duplex_probe core
                (pdev_of (Some (delete (propname (other d)) node))) k)) =
      channels_max_of d
        (snd (spdif_duplex_probe core (pdev_of (Some node)) k))).
Proof.
  split; [| split].
  - intros core' pdev1 pdev2 k1 k2. apply probe_channels_max_local.
  - intros node x k. apply probe_channels_max_local; [| reflexivity].
    simpl. apply lookup_insert_ne, propname_other.
  - intros node k. apply probe_channels_max_local; [| reflexivity].
    simpl. apply lookup_delete_ne, propname_other.
Qed.

Lemma C4_directions_independent_witness :
  channels_max_of Capture
    (snd (spdif_duplex_probe core_ok (pdev_of (node_cap 8))
            (module_init linux_pcm_h))) =
  channels_max_of Capture
    (snd (spdif_duplex_probe core_enomem (pdev_of (node_both 8 500))
            (module_init linux_pcm_h))).
Proof.
  destruct (C4_directions_independent core_ok Capture) as (Hgen & _ & _).
  apply (Hgen core_enomem (pdev_of (node_cap 8)) (pdev_of (node_both 8 500))
           (module_init linux_pcm_h) (module_init linux_pcm_h));
    vm_compute; reflexivity.
Defined.

Lemma reachable_channels_min core h pdevs pdev d :
  channels_min_of d (snd (attach_all core pdevs (module_init h))) = 1 /\
  channels_min_of d
    (snd (spdif_duplex_probe core pdev
            (snd (attach_all core pdevs (module_init h))))) = 1.
Proof.
  assert (Hs : channels_min_of d (snd (attach_all core pdevs (module_init h))) = 1).
  { pose proof (fixed_part_attach_all core h pdevs (module_init h)
                  (fixed_part_init h)) as [_ Hd].
    apply (Hd d). }
  unfold channels_min_of in *.
  split; [exact Hs |]. rewrite probe_channels_min. exact Hs.
Qed.

(** C5: the channel minimum of both directions is 1 in the static
    initialiser and after any sequence of attachments, and no run of the
    probe changes it. *)
Theorem C5_channels_min_is_1 core h pdevs pdev d :
  channels_min_of d (snd (attach_all core pdevs (module_init h))) = 1 /\
  channels_min_of d
    (snd (spdif_duplex_probe core pdev
            (snd (attach_all core pdevs (module_init h))))) = 1 /\
  (forall k, channels_min_of d (snd (spdif_duplex_probe core pdev k)) =
             channels_min_of d k).
Proof.
  destruct (reachable_channels_min core h pdevs pdev d) as [Hs Hp].
  split; [exact Hs |]. split; [exact Hp |].
  intros k. apply probe_channels_min.
Qed.

(** C10: 0 passes the test of the probe; a property that reads as 0 makes
    the probe store 0 in the channel maximum of its direction, below the
    channel minimum 1, and the DAI driver is registered in that state. *)
Theorem C10_zero_is_accepted core h pdevs pdev d :
  of_read_u32 (of_node (dev pdev)) (propname d) = inr 0 ->
  channels_ok 0 = true /\
  channels_max_of d
    (snd (spdif_duplex_probe core pdev
            (snd (attach_all core pdevs (module_init h))))) = 0 /\
  channels_min_of d
    (snd (spdif_duplex_probe core pdev
            (snd (attach_all core pdevs (module_init h))))) = 1 /\
  channels_max_of d
    (snd (spdif_duplex_probe core pdev
            (snd (attach_all core pdevs (module_init h))))) <
  channels_min_of d
    (snd (spdif_duplex_probe core pdev
            (snd (attach_all core pdevs (module_init h))))) /\
  asoc_calls
    (snd (spdif_duplex_probe core pdev
            (snd (attach_all core pdevs (module_init h))))) =
  asoc_calls (snd (attach_all core pdevs (module_init h))) ++
  [(probe_call pdev,
    fst (spdif_duplex_probe core pdev
           (snd (attach_all core pdevs (module_init h)))))].
Proof.
  intros Hr.
  assert (Hmax : channels_max_of d
    (snd (spdif_duplex_probe core pdev
            (snd (attach_all core pdevs (module_init h))))) = 0).
  { unfold channels_max_of. rewrite probe_channels_max, Hr. reflexivity. }
  destruct (reachable_channels_min core h pdevs pdev d) as [_ Hmin].
  rewrite Hmax, Hmin.
  repeat split; try reflexivity; try lia.
  apply probe_calls.
Qed.

Lemma C10_zero_is_accepted_witness :
  channels_max_of Playback
    (snd (spdif_duplex_probe core_ok (pdev_of (node_play 0))
            (snd (attach_all core_ok [] (module_init linux_pcm_h))))) = 0 /\
  channels_min_of Playback
    (snd (spdif_duplex_probe core_ok (pdev_of (node_play 0))
            (snd (attach_all core_ok [] (module_init linux_pcm_h))))) = 1.
Proof.
  destruct (C10_zero_is_accepted core_ok linux_pcm_h [] (pdev_of (node_play 0))
              Playback) as (_ & Hmax & Hmin & _).
  - vm_compute. reflexivity.
  - split; [exact Hmax | exact Hmin].
Defined.

(* ===================================================================== *)
(** ** Registration                                                      *)
(* ===================================================================== *)

(** C6, evaluated on the code: every run of the probe appends exactly one
    call to the log of the core, with one DAI driver and the component
    driver whose two routes are, in the order sink, control, source,
    ("Capture", NULL, "spdif-in") and ("Playback", NULL, "spdif-out").  The
    second route has the stream "Playback" as its sink and the output
    widget as its source; the route from "Playback" into "spdif-out" is
    not among them. *)
Theorem C6_one_call_second_route_reversed core pdev k :
  asoc_calls (snd (spdif_duplex_probe core pdev k)) =
    asoc_calls k ++ [(probe_call pdev, fst (spdif_duplex_probe core pdev k))] /\
  call_num_dai (probe_call pdev) = 1 /\
  call_dai_drv (probe_call pdev) = addr_duplex_stub_dai /\
  num_dapm_routes (call_component_driver (probe_call pdev)) = 2 /\
  dapm_routes (call_component_driver (probe_call pdev)) =
    [ {| sink := "Capture"; control := None; source := "spdif-in" |};
      {| sink := "Playback"; control := None; source := "spdif-out" |} ] /\
  dapm_widgets (call_component_driver (probe_call pdev)) =
    [ {| id := snd_soc_dapm_input; widget_name := "spdif-in" |};
      {| id := snd_soc_dapm_output; widget_name := "spdif-out" |} ] /\
  ~ In {| sink := "spdif-out"; control := None; source := "Playback" |}
       (dapm_routes (call_component_driver (probe_call pdev))) /\
  Forall (fun r => In (source r) (map widget_name duplex_widgets) /\
                   ~ In (sink r) (map widget_name duplex_widgets))
    (dapm_routes (call_component_driver (probe_call pdev))).
Proof.
  split; [apply probe_calls |].
  do 5 (split; [reflexivity |]).
  split.
  - simpl. intros [H | [H | []]]; discriminate.
  - simpl. repeat constructor; simpl; try tauto;
      intros [H | [H | []]]; discriminate.
Qed.

(** C7, as the code has it: when the call of the core fails, the probe
    returns the value the core returned, the call is the only one the
    probe makes and the last thing it does, and the stores into the
    channel maxima that preceded the call stay in the static object. *)
Theorem C7_failure_returned_stores_stay core pdev k :
  fst (spdif_duplex_probe core pdev k) <> 0 ->
  fst (spdif_duplex_probe core pdev k) =
    core (snd (probe_stores pdev k)) (probe_call pdev) /\
  snd (spdif_duplex_probe core pdev k) =
    {| duplex_stub_dai := duplex_stub_dai (snd (probe_stores pdev k));
       asoc_calls :=
         asoc_calls k ++
         [(probe_call pdev, fst (spdif_duplex_probe core pdev k))] |} /\
  (forall d,
      channels_max_of d (snd (spdif_duplex_probe core pdev k)) =
      channels_after (of_read_u32 (of_node (dev pdev)) (propname d))
        (channels_max_of d k)).
Proof.
  intros _. split; [apply probe_result |]. split.
  - rewrite probe_final_state at 1. rewrite probe_stores_calls. reflexivity.
  - intros d. apply probe_channels_max.
Qed.

Lemma C7_failure_returned_stores_stay_witness :
  fst (spdif_duplex_probe core_enomem (pdev_of (node_cap 8))
         (module_init linux_pcm_h)) = -12 /\
  channels_max_of Capture
    (snd (spdif_duplex_probe core_enomem (pdev_of (node_cap 8))
            (module_init linux_pcm_h))) = 8.
Proof.
  destruct (C7_failure_returned_stores_stay core_enomem (pdev_of (node_cap 8))
              (module_init linux_pcm_h)) as (Hr & _ & Hmax).
  - vm_compute. discriminate.
  - split; [exact Hr |]. rewrite (Hmax Capture). vm_compute. reflexivity.
Defined.

(** C7 as stated fails: a probe whose registration is refused leaves its
    store behind.  With [capture-channels = <8>] and a core that returns
    -12, the static object differs from what it was before the probe, and
    the next attachment, with the invalid [capture-channels = <7>],
    registers a capture maximum of 8, where it registers 384 when the
    failed attachment has not taken place. *)
Lemma C7_failed_probe_is_not_atomic :
  fst (spdif_duplex_probe core_enomem (pdev_of (node_cap 8))
         (module_init linux_pcm_h)) = -12 /\
  duplex_stub_dai
    (snd (spdif_duplex_probe core_enomem (pdev_of (node_cap 8))
            (module_init linux_pcm_h))) <>
  duplex_stub_dai (module_init linux_pcm_h) /\
  fst (attach_all core_fail_first [pdev_of (node_cap 8); pdev_of (node_cap 7)]
         (module_init linux_pcm_h)) = [-12; 0] /\
  channels_max_of Capture
    (snd (attach_all core_fail_first
            [pdev_of (node_cap 8); pdev_of (node_cap 7)]
            (module_init linux_pcm_h))) = 8 /\
  channels_max_of Capture
    (snd (attach_all core_ok [pdev_of (node_cap 7)]
            (module_init linux_pcm_h))) = 384.
Proof.
  repeat split; try (vm_compute; reflexivity).
  intros H. vm_compute in H. discriminate.
Qed.

(* ===================================================================== *)
(** ** The static object is shared by all attachments                    *)
(* ===================================================================== *)

(** C8, as the code has it: all attachments store into the one static
    DAI driver object.  When each of the two properties of an attachment
    is unreadable or valid, the contents of the object after the probe
    are the same whatever attachments came before. *)
Theorem C8_history_independent_when_fields_decide core1 core2 h pdevs1 pdevs2 pdev :
  (forall d,
      match of_read_u32 (of_node (dev pdev)) (propname d) with
      | inl _ => True
      | inr v => v < 385 /\ Z.even v = true
      end) ->
  duplex_stub_dai
    (snd (spdif_duplex_probe core1 pdev
            (snd (attach_all core1 pdevs1 (module_init h))))) =
  duplex_stub_dai
    (snd (spdif_duplex_probe core2 pdev
            (snd (attach_all core2 pdevs2 (module_init h))))).
Proof.
  intros Hdec.
  pose proof (fixed_part_probe core1 h pdev _
                (fixed_part_attach_all core1 h pdevs1 (module_init h)
                   (fixed_part_init h))) as [Hn1 Hd1].
  pose proof (fixed_part_probe core2 h pdev _
                (fixed_part_attach_all core2 h pdevs2 (module_init h)
                   (fixed_part_init h))) as [Hn2 Hd2].
  apply dai_driver_eq; [congruence |].
  intros d.
  destruct (Hd1 d) as (Hs1 & Hm1 & Hr1 & Hf1).
  destruct (Hd2 d) as (Hs2 & Hm2 & Hr2 & Hf2).
  apply pcm_stream_eq; try congruence.
  rewrite !probe_channels_max.
  specialize (Hdec d).
  destruct (of_read_u32 (of_node (dev pdev)) (propname d)) as [e | v];
    [reflexivity |].
  simpl. destruct Hdec as [Hlt Hev].
  assert (channels_ok v = true) as -> by (apply channels_ok_spec; auto).
  reflexivity.
Qed.

Lemma C8_history_independent_when_fields_decide_witness :
  duplex_stub_dai
    (snd (spdif_duplex_probe core_ok (pdev_of (node_cap 6))
            (snd (attach_all core_ok [pdev_of (node_cap 8)]
                    (module_init linux_pcm_h))))) =
  duplex_stub_dai
    (snd (spdif_duplex_probe core_enomem (pdev_of (node_cap 6))
            (snd (attach_all core_enomem [pdev_of (node_both 4 4)]
                    (module_init linux_pcm_h))))).
Proof.
  apply (C8_history_independent_when_fields_decide core_ok core_enomem
           linux_pcm_h [pdev_of (node_cap 8)] [pdev_of (node_both 4 4)]
           (pdev_of (node_cap 6))).
  intros []; vm_compute; [split; [reflexivity | reflexivity] | exact I].
Defined.

(** C8 as stated fails: with the invalid [capture-channels = <7>], the
    object after the probe depends on the attachment that came before
    (capture maximum 8 after [<8>], 4 after [<4>]); and the DAI driver of
    an earlier registration, which the core holds by address, changes
    when a later attachment stores into the object. *)
Lemma C8_descriptor_depends_on_earlier_run :
  duplex_stub_dai
    (snd (attach_all core_ok [pdev_of (node_cap 8); pdev_of (node_cap 7)]
            (module_init linux_pcm_h))) <>
  duplex_stub_dai
    (snd (attach_all core_ok [pdev_of (node_cap 4); pdev_of (node_cap 7)]
            (module_init linux_pcm_h))) /\
  channels_max_of Capture
    (snd (attach_all core_ok [pdev_of (node_cap 8); pdev_of (node_cap 7)]
            (module_init linux_pcm_h))) = 8 /\
  channels_max_of Capture
    (snd (attach_all core_ok [pdev_of (node_cap 4); pdev_of (node_cap 7)]
            (module_init linux_pcm_h))) = 4 /\
  registered_max Capture
    (snd (attach_all core_ok [pdev_of (node_cap 8)]
            (module_init linux_pcm_h))) = [8] /\
  registered_max Capture
    (snd (attach_all core_ok [pdev_of (node_cap 8); pdev_of (node_cap 6)]
            (module_init linux_pcm_h))) = [6; 6].
Proof.
  repeat split; try (vm_compute; reflexivity).
  intros H. vm_compute in H. discriminate.
Qed.

(** With the mask values of the Linux headers the format set has exactly
    five members: the bits 2, 6, 10, 18 and 38. *)
Lemma STUB_FORMATS_linux_bits (n : Z) :
  0 <= n ->
  Z.testbit (STUB_FORMATS linux_pcm_h) n = true <->
  In n [2; 38; 6; 10; 18].
Proof.
  intros Hn. unfold STUB_FORMATS, linux_pcm_h; simpl SNDRV_PCM_FMTBIT_S16_LE;
    simpl SNDRV_PCM_FMTBIT_S20_3LE; simpl SNDRV_PCM_FMTBIT_S24_LE;
    simpl SNDRV_PCM_FMTBIT_S32_LE; simpl SNDRV_PCM_FMTBIT_IEC958_SUBFRAME_LE.
  rewrite !Z.lor_spec, !Z.shiftl_1_l, !Z.pow2_bits_eqb by lia.
  rewrite !orb_true_iff, !Z.eqb_eq. simpl. intuition lia.
Qed.

(** C9: what an attachment through the platform driver registers.  The
    device passed to the core is bound to the driver named "spdif-did";
    the component driver is the static one, with the static routes; the
    DAI driver the core is given is named "did-hifi" and has, for each
    direction, the rate mask [STUB_RATES], the format mask [STUB_FORMATS]
    (the union of five format bits), the channel minimum 1 and the
    channel maximum the probe computed from the property of that
    direction.  This holds after any earlier attachments and for any
    node, so that names, rates, formats, minima and routes do not depend
    on the configuration. *)
Theorem C9_registered_descriptor core h pdevs pdev :
  asoc_calls
    (snd (platform_probe (spdif_duplex_driver core) pdev
            (snd (attach_all core pdevs (module_init h))))) =
  asoc_calls (snd (attach_all core pdevs (module_init h))) ++
  [(probe_call (bind_driver (driver (spdif_duplex_driver core)) pdev),
    fst (platform_probe (spdif_duplex_driver core) pdev
           (snd (attach_all core pdevs (module_init h)))))] /\
  bound_driver
    (call_dev (probe_call (bind_driver (driver (spdif_duplex_driver core)) pdev))) =
    Some (driver (spdif_duplex_driver core)) /\
  driver_name (driver (spdif_duplex_driver core)) = "spdif-did" /\
  call_component_driver
    (probe_call (bind_driver (driver (spdif_duplex_driver core)) pdev)) =
    soc_codec_spdif_duplex /\
  dapm_routes soc_codec_spdif_duplex = duplex_routes /\
  call_num_dai
    (probe_call (bind_driver (driver (spdif_duplex_driver core)) pdev)) = 1 /\
  name
    (deref
       (snd (platform_probe (spdif_duplex_driver core) pdev
               (snd (attach_all core pdevs (module_init h)))))
       (call_dai_drv
          (probe_call (bind_driver (driver (spdif_duplex_driver core)) pdev)))) =
    "did-hifi" /\
  (forall d,
      rates
        (pcm_stream d
           (deref
              (snd (platform_probe (spdif_duplex_driver core) pdev
                      (snd (attach_all core pdevs (module_init h)))))
              (call_dai_drv
                 (probe_call
                    (bind_driver (driver (spdif_duplex_driver core)) pdev))))) =
        SNDRV_PCM_RATE_8000_96000 h /\
      formats
        (pcm_stream d
           (deref
              (snd (platform_probe (spdif_duplex_driver core) pdev
                      (snd (attach_all core pdevs (module_init h)))))
              (call_dai_drv
                 (probe_call
                    (bind_driver (driver (spdif_duplex_driver core)) pdev))))) =
        Z.lor (SNDRV_PCM_FMTBIT_S16_LE h)
          (Z.lor (SNDRV_PCM_FMTBIT_S20_3LE h)
             (Z.lor (SNDRV_PCM_FMTBIT_S24_LE h)
                (Z.lor (SNDRV_PCM_FMTBIT_S32_LE h)
                   (SNDRV_PCM_FMTBIT_IEC958_SUBFRAME_LE h)))) /\
      channels_min
        (pcm_stream d
           (deref
              (snd (platform_probe (spdif_duplex_driver core) pdev
                      (snd (attach_all core pdevs (module_init h)))))
              (call_dai_drv
                 (probe_call
                    (bind_driver (driver (spdif_duplex_driver core)) pdev))))) =
        1 /\
      channels_max
        (pcm_stream d
           (deref
              (snd (platform_probe (spdif_duplex_driver core) pdev
                      (snd (attach_all core pdevs (module_init h)))))
              (call_dai_drv
                 (probe_call
                    (bind_driver (driver (spdif_duplex_driver core)) pdev))))) =
        channels_after (of_read_u32 (of_node (dev pdev)) (propname d))
          (channels_max_of d (snd (attach_all core pdevs (module_init h))))).
Proof.
  unfold platform_probe. simpl probe. simpl deref.
  set (k := snd (attach_all core pdevs (module_init h))).
  set (pdev' := bind_driver _ pdev).
  assert (Hk : fixed_part h (duplex_stub_dai k))
    by apply fixed_part_attach_all, fixed_part_init.
  destruct (fixed_part_probe core h pdev' k Hk) as [Hn Hd].
  split; [apply probe_calls |].
  do 5 (split; [reflexivity |]).
  split; [exact Hn |].
  intros d. destruct (Hd d) as (_ & Hmin & Hr & Hf).
  split; [exact Hr |]. split; [exact Hf |]. split; [exact Hmin |].
  exact (probe_channels_max core d pdev' k).
Qed.

(* ===================================================================== *)
(** ** Sequences of attachments                                          *)
(* ===================================================================== *)

Section Attachments.

Variable asoc_core : kernel -> register_call -> Z.

Lemma attach_all_fst_cons pdev rest k :
  fst (attach_all asoc_core (pdev :: rest) k) =
  fst (platform_probe (spdif_duplex_driver asoc_core) pdev k) ::
  fst (attach_all asoc_core rest
         (snd (platform_probe (spdif_duplex_driver asoc_core) pdev k))).
Proof.
  change (attach_all asoc_core (pdev :: rest)) with
    (bind (platform_probe (spdif_duplex_driver asoc_core) pdev)
       (fun r => bind (attach_all asoc_core rest) (fun rs => ret (r :: rs)))).
  rewrite !bind_run. reflexivity.
Qed.

Lemma platform_probe_channels_max d pdev k :
  channels_max_of d
    (snd (platform_probe (spdif_duplex_driver asoc_core) pdev k)) =
  channels_after (of_read_u32 (of_node (dev pdev)) (propname d))
    (channels_max_of d k).
Proof.
  unfold channels_max_of. rewrite platform_probe_state.
  apply probe_channels_max.
Qed.

Lemma platform_probe_calls pdev k :
  asoc_calls (snd (platform_probe (spdif_duplex_driver asoc_core) pdev k)) =
  asoc_calls k ++
  [(probe_call (bind_driver (driver (spdif_duplex_driver asoc_core)) pdev),
    fst (platform_probe (spdif_duplex_driver asoc_core) pdev k))].
Proof. unfold platform_probe. simpl probe. apply probe_calls. Qed.

Lemma attach_all_results_length pdevs : forall k,
  length (fst (attach_all asoc_core pdevs k)) = length pdevs.
Proof.
  induction pdevs as [| pdev rest IH]; intros k.
  - reflexivity.
  - rewrite attach_all_fst_cons. simpl. rewrite IH. reflexivity.
Qed.

Lemma attach_all_calls pdevs : forall k,
  asoc_calls (snd (attach_all asoc_core pdevs k)) =
  asoc_calls k ++
  attach_calls (driver (spdif_duplex_driver asoc_core)) pdevs
    (fst (attach_all asoc_core pdevs k)).
Proof.
  induction pdevs as [| pdev rest IH]; intros k.
  - simpl. unfold attach_calls. simpl. rewrite app_nil_r. reflexivity.
  - rewrite attach_all_cons, IH, attach_all_fst_cons, platform_probe_calls.
    unfold attach_calls. simpl. rewrite <- app_assoc. reflexivity.
Qed.

Lemma attach_all_channels_max d pdevs : forall k,
  channels_max_of d (snd (attach_all asoc_core pdevs k)) =
  channels_after_all d pdevs (channels_max_of d k).
Proof.
  induction pdevs as [| pdev rest IH]; intros k.
  - reflexivity.
  - rewrite attach_all_cons, IH, platform_probe_channels_max. reflexivity.
Qed.

End Attachments.

Lemma channels_after_idem rd old :
  channels_after rd (channels_after rd old) = channels_after rd old.
Proof.
  destruct rd as [e | v]; simpl; [reflexivity |].
  destruct (channels_ok v) eqn:Hok; simpl; rewrite ?Hok; reflexivity.
Qed.

Lemma channels_after_bounds np p old :
  (0 <= old <= 384 /\ Z.even old = true) ->
  0 <= channels_after (of_read_u32 np p) old <= 384 /\
  Z.even (channels_after (of_read_u32 np p) old) = true.
Proof.
  intros Hold.
  destruct (of_read_u32 np p) as [e | v] eqn:Hr; simpl.
  - split; [lia | reflexivity].
  - destruct (channels_ok v) eqn:Hok; [| exact Hold].
    apply channels_ok_spec in Hok as [Hlt Hev].
    apply of_read_u32_range in Hr. split; [lia | exact Hev].
Qed.

Lemma channels_after_all_bounds d pdevs : forall old,
  (0 <= old <= 384 /\ Z.even old = true) ->
  0 <= channels_after_all d pdevs old <= 384 /\
  Z.even (channels_after_all d pdevs old) = true.
Proof.
  induction pdevs as [| pdev rest IH]; intros old Hold.
  - exact Hold.
  - simpl. apply IH, channels_after_bounds, Hold.
Qed.

(** The contents of the static object after the probe are determined by
    its contents before and by the two properties. *)
Lemma probe_dai_local core1 core2 pdev1 pdev2 k1 k2 :
  duplex_stub_dai k1 = duplex_stub_dai k2 ->
  (forall d, of_find_property (of_node (dev pdev1)) (propname d) =
             of_find_property (of_node (dev pdev2)) (propname d)) ->
  duplex_stub_dai (snd (spdif_duplex_probe core1 pdev1 k1)) =
  duplex_stub_dai (snd (spdif_duplex_probe core2 pdev2 k2)).
Proof.
  intros Hk Hp. apply dai_driver_eq.
  - rewrite !probe_name, Hk. reflexivity.
  - intros d. apply pcm_stream_eq;
      rewrite ?probe_stream_name, ?probe_channels_min, ?probe_rates,
        ?probe_formats, ?Hk; try reflexivity.
    apply probe_channels_max_local; [apply Hp |].
    unfold channels_max_of. rewrite Hk. reflexivity.
Qed.

Lemma registered_max_const d k :
  registered_max d k =
  repeat (channels_max_of d k) (length (asoc_calls k)).
Proof.
  unfold registered_max, channels_max_of.
  induction (asoc_calls k) as [| [c r] rest IH]; [reflexivity |].
  simpl. rewrite IH. destruct (call_dai_drv c). reflexivity.
Qed.

Lemma attach_calls_length drv pdevs rs :
  length rs = length pdevs -> length (attach_calls drv pdevs rs) = length pdevs.
Proof.
  intros H. unfold attach_calls.
  rewrite length_combine, length_map, H. lia.
Qed.

(* ===================================================================== *)
(** ** Further properties of the probe                                   *)
(* ===================================================================== *)

(** X1: after any sequence of attachments, the channel maximum of a
    direction is the left fold of the rule of the probe over the devices,
    started from the old maximum (from 384 when the module has just been
    loaded): each device either stores 2 (unreadable property), stores
    its own valid value, or passes on what was there. *)
Theorem attach_all_max_is_fold core h d pdevs :
  (forall k,
      channels_max_of d (snd (attach_all core pdevs k)) =
      channels_after_all d pdevs (channels_max_of d k)) /\
  channels_max_of d (snd (attach_all core pdevs (module_init h))) =
  channels_after_all d pdevs 384.
Proof.
  split.
  - intros k. apply attach_all_channels_max.
  - rewrite attach_all_channels_max. destruct d; reflexivity.
Qed.

(** X2: in every state reached from the freshly loaded module by
    attachments, and after a further run of the probe, both channel
    maxima are even and lie between 0 and 384. *)
Theorem channels_max_even_at_most_384 core h pdevs pdev d :
  (0 <= channels_max_of d (snd (attach_all core pdevs (module_init h))) <= 384 /\
   Z.even (channels_max_of d (snd (attach_all core pdevs (module_init h)))) = true)
  /\
  (0 <= channels_max_of d
          (snd (spdif_duplex_probe core pdev
                  (snd (attach_all core pdevs (module_init h))))) <= 384 /\
   Z.even (channels_max_of d
             (snd (spdif_duplex_probe core pdev
                     (snd (attach_all core pdevs (module_init h)))))) = true).
Proof.
  assert (Hreach :
    0 <= channels_max_of d (snd (attach_all core pdevs (module_init h))) <= 384 /\
    Z.even (channels_max_of d (snd (attach_all core pdevs (module_init h)))) = true).
  { rewrite attach_all_channels_max. apply channels_after_all_bounds.
    assert (channels_max_of d (module_init h) = 384) as ->
      by (destruct d; reflexivity).
    split; [lia | reflexivity]. }
  split; [exact Hreach |].
  unfold channels_max_of at 1 2 3. rewrite !probe_channels_max.
  apply channels_after_bounds. exact Hreach.
Qed.

(** X3: probing the same device a second time changes nothing in the
    static object: the contents after two runs are those after one. *)
Theorem probe_twice_same_descriptor core1 core2 pdev k :
  duplex_stub_dai
    (snd (spdif_duplex_probe core2 pdev (snd (spdif_duplex_probe core1 pdev k)))) =
  duplex_stub_dai (snd (spdif_duplex_probe core1 pdev k)).
Proof.
  apply dai_driver_eq.
  - rewrite !probe_name. reflexivity.
  - intros d. apply pcm_stream_eq;
      rewrite ?probe_stream_name, ?probe_channels_min, ?probe_rates,
        ?probe_formats; try reflexivity.
    rewrite !probe_channels_max. apply channels_after_idem.
Qed.

(** X4: attaching a list of devices appends to the log of the core one
    call per device, in the order of the devices, each with the device
    bound to the driver and with the result that the probe returned; a
    probe that fails does not keep the later devices from being probed. *)
Theorem attach_all_appends_one_call_per_device core pdevs k :
  asoc_calls (snd (attach_all core pdevs k)) =
    asoc_calls k ++
    attach_calls (driver (spdif_duplex_driver core)) pdevs
      (fst (attach_all core pdevs k)) /\
  length (fst (attach_all core pdevs k)) = length pdevs /\
  length (asoc_calls (snd (attach_all core pdevs k))) =
    (length (asoc_calls k) + length pdevs)%nat.
Proof.
  split; [apply attach_all_calls |].
  split; [apply attach_all_results_length |].
  rewrite attach_all_calls, length_app, attach_calls_length;
    [reflexivity | apply attach_all_results_length].
Qed.

(** X5: every registration holds the address of the one static object,
    so after the devices [pdevs] have been attached to the freshly loaded
    module, each of the registered DAI drivers shows the channel maximum
    that the whole sequence left, not the one present when it was
    registered. *)
Theorem registrations_show_latest_max core h pdevs d :
  registered_max d (snd (attach_all core pdevs (module_init h))) =
  repeat (channels_after_all d pdevs 384) (length pdevs).
Proof.
  rewrite registered_max_const, attach_all_channels_max, attach_all_calls.
  rewrite length_app, attach_calls_length by apply attach_all_results_length.
  destruct d; reflexivity.
Qed.

(** X6: the probe has no failure of its own: its result is what the core
    returned for the one call, whatever the node holds; with a core that
    accepts every registration the probe returns 0 for every device. *)
Theorem probe_fails_only_when_core_fails core pdev k :
  (forall k' c, core k' c = 0) ->
  fst (spdif_duplex_probe core pdev k) = 0.
Proof.
  intros Hcore. rewrite probe_result. apply Hcore.
Qed.

Lemma probe_fails_only_when_core_fails_witness :
  fst (spdif_duplex_probe core_ok (pdev_of (node_both 7 500))
         (module_init linux_pcm_h)) = 0.
Proof.
  apply (probe_fails_only_when_core_fails core_ok (pdev_of (node_both 7 500))
           (module_init linux_pcm_h)).
  intros k' c. reflexivity.
Defined.

(** X7: a property that is present but shorter than one cell (fewer than
    four bytes, or empty) cannot be read; the probe then stores 2 in the
    channel maximum of that direction, as for an absent property. *)
Theorem short_property_stores_2 core d pdev k bs :
  of_find_property (of_node (dev pdev)) (propname d) = Some bs ->
  (length bs < 4)%nat ->
  channels_max_of d (snd (spdif_duplex_probe core pdev k)) = 2.
Proof.
  intros Hp Hlen. unfold channels_max_of.
  rewrite probe_channels_max. unfold of_read_u32. rewrite Hp.
  destruct bs as [| b0 [| b1 [| b2 [| b3 rest]]]]; simpl in *;
    try reflexivity; lia.
Qed.

Lemma short_property_stores_2_witness :
  channels_max_of Capture
    (snd (spdif_duplex_probe core_ok
            (pdev_of (Some {[ "capture-channels" := [x00; x08] ]}))
            (module_init linux_pcm_h))) = 2.
Proof.
  apply (short_property_stores_2 core_ok Capture
           (pdev_of (Some {[ "capture-channels" := [x00; x08] ]}))
           (module_init linux_pcm_h) [x00; x08]);
    [vm_compute; reflexivity | simpl; lia].
Defined.

(** X8: the probe looks at the two named properties of the node and at
    nothing else of the device: two devices whose nodes agree on both
    properties leave the same contents in the static object; setting or
    removing a property of any other name changes nothing; a device
    without node behaves as one with an empty node. *)
Theorem only_the_two_properties_matter core k :
  (forall core' pdev1 pdev2,
      (forall d, of_find_property (of_node (dev pdev1)) (propname d) =
                 of_find_property (of_node (dev pdev2)) (propname d)) ->
      duplex_stub_dai (snd (spdif_duplex_probe core pdev1 k)) =
      duplex_stub_dai (snd (spdif_duplex_probe core' pdev2 k))) /\
  (forall (node : device_node) (p : string) (x : list byte),
      p <> "capture-channels" -> p <> "playback-channels" ->
      duplex_stub_dai
        (snd (spdif_duplex_probe core (pdev_of (Some (<[p := x]> node))) k)) =
      duplex_stub_dai
        (snd (spdif_duplex_probe core (pdev_of (Some node)) k)) /\
      duplex_stub_dai
        (snd (spdif_duplex_probe core (pdev_of (Some (delete p node))) k)) =
      duplex_stub_dai
        (snd (spdif_duplex_probe core (pdev_of (Some node)) k))) /\
  duplex_stub_dai (snd (spdif_duplex_probe core (pdev_of None) k)) =
  duplex_stub_dai
    (snd (spdif_duplex_probe core (pdev_of (Some (∅ : device_node))) k)).
Proof.
  split; [| split].
  - intros core' pdev1 pdev2 Hp. apply probe_dai_local; [reflexivity | exact Hp].
  - intros node p x Hc Hpl. split; apply probe_dai_local; try reflexivity;
      intros d; simpl.
    + apply lookup_insert_ne. destruct d; simpl; congruence.
    + apply lookup_delete_ne. destruct d; simpl; congruence.
  - apply probe_dai_local; [reflexivity |].
    intros d. simpl. rewrite lookup_empty. reflexivity.
Qed.

Lemma only_the_two_properties_matter_witness :
  duplex_stub_dai
    (snd (spdif_duplex_probe core_ok
            (pdev_of (Some (<["compatible" := [x00]]>
                              {[ "capture-channels" := cpu_to_be32 8 ]})))
            (module_init linux_pcm_h))) =
  duplex_stub_dai
    (snd (spdif_duplex_probe core_ok (pdev_of (node_cap 8))
            (module_init linux_pcm_h))).
Proof.
  destruct (only_the_two_properties_matter core_ok (module_init linux_pcm_h))
    as (_ & Hframe & _).
  apply (Hframe {[ "capture-channels" := cpu_to_be32 8 ]} "compatible" [x00]);
    discriminate.
Defined.

(** X9: from any state, the probe leaves the name of the DAI driver and,
    for both directions, the stream name, the channel minimum, the rate
    mask and the format mask as they were; of the static object it writes
    the two channel maxima only. *)
Theorem probe_writes_only_the_maxima core pdev k :
  name (duplex_stub_dai (snd (spdif_duplex_probe core pdev k))) =
    name (duplex_stub_dai k) /\
  (forall d,
      stream_name (pcm_stream d (duplex_stub_dai (snd (spdif_duplex_probe core pdev k)))) =
        stream_name (pcm_stream d (duplex_stub_dai k)) /\
      channels_min (pcm_stream d (duplex_stub_dai (snd (spdif_duplex_probe core pdev k)))) =
        channels_min (pcm_stream d (duplex_stub_dai k)) /\
      rates (pcm_stream d (duplex_stub_dai (snd (spdif_duplex_probe core pdev k)))) =
        rates (pcm_stream d (duplex_stub_dai k)) /\
      formats (pcm_stream d (duplex_stub_dai (snd (spdif_duplex_probe core pdev k)))) =
        formats (pcm_stream d (duplex_stub_dai k))).
Proof.
  split; [apply probe_name |].
  intros d. rewrite probe_stream_name, probe_channels_min, probe_rates,
    probe_formats. repeat split.
Qed.
